(** * fly_agent.py: the Python bridge to the Fly CLI

    A shallow embedding of [docs/ai-integration/scripts/fly_agent.py] and the
    properties of its command bridge.  The class [FlyCLIAgent] spawns the
    [fly] executable, asks it for JSON output, and turns what comes back into
    a decoded value or a [RuntimeError].

    Python exceptions are modelled by an error monad, the operating system
    and the parts of the Python library the script calls (json.loads, repr,
    str.strip, the text of a CalledProcessError) by a record of functions
    the development is parametric in. *)

From Stdlib Require Import ZArith SpecFloat Ascii.
From stdpp Require Import base option strings list pretty.

Set Warnings "-register-all".

Local Open Scope Z_scope.

(** ** Python values *)

(** What [json.loads] can return: None, bool, int, float, str, list, dict.
    A Python float is a binary64 number.  A dict keeps its items in the
    order they were inserted, which is the order [json.dumps] and [repr]
    write them in; its keys are distinct, so the list of a decoded object
    holds each key once. *)
Inductive json : Type :=
| JNone
| JBool (b : bool)
| JInt (z : Z)
| JFloat (f : spec_float)
| JStr (s : string)
| JList (l : list json)
| JDict (d : list (string * json)).

(** [d[key]] where there is one: the item with that key. *)
Fixpoint dict_lookup (key : string) (d : list (string * json))
    : option json :=
  match d with
  | [] => None
  | (k, v) :: d' => if String.eqb k key then Some v else dict_lookup key d'
  end.

#[export] Instance dict_lookup_instance :
  Lookup string json (list (string * json)) := dict_lookup.
#[export] Instance dict_empty : Empty (list (string * json)) := [].
#[export] Instance dict_singleton :
  SingletonM string json (list (string * json)) := fun k v => [(k, v)].

(** [type(v).__name__], as it appears in the text of an AttributeError. *)
Definition type_name (v : json) : string :=
  match v with
  | JNone => "NoneType"
  | JBool _ => "bool"
  | JInt _ => "int"
  | JFloat _ => "float"
  | JStr _ => "str"
  | JList _ => "list"
  | JDict _ => "dict"
  end.

(** ** Exceptions *)

Inductive Exception : Type :=
| RuntimeError (msg : string)
| CalledProcessError (returncode : Z) (cmd : list string) (stdout stderr : string)
| FileNotFoundError (filename : string)
| OSError (errno : Z) (filename : string)
| JSONDecodeError (text : string)
| AttributeError (msg : string)
| UnicodeDecodeError (text : string).

Inductive Result (A : Type) : Type :=
| Return (a : A)
| Raise (e : Exception).
Arguments Return {A} a.
Arguments Raise {A} e.

(** ** Effects

    The script has two effects besides raising: it asks the operating system
    to run a command line, and it prints.  An action is the list of effects
    it performed, in order, and how it ended. *)

Inductive Event : Type :=
| Exec (argv : list string)
| Print (line : string).

Record Action (A : Type) : Type := Act {
  trace : list Event;
  outcome : Result A
}.
Arguments Act {A} trace outcome.
Arguments trace {A} a.
Arguments outcome {A} a.

Definition raise {A} (e : Exception) : Action A := Act [] (Raise e).

#[export] Instance Action_ret : MRet Action := fun A a => Act [] (Return a).
#[export] Instance Action_bind : MBind Action := fun A B f m =>
  match outcome m with
  | Return a => Act (trace m ++ trace (f a)) (outcome (f a))
  | Raise e => Act (trace m) (Raise e)
  end.

(** [try: body / except ...:]: the handler answers [None] for an exception
    that no except clause names, which then propagates; an exception raised
    by a handler is not caught by the other clauses of the same [try]. *)
Definition try_except {A} (body : Action A)
    (handler : Exception -> option (Action A)) : Action A :=
  match outcome body with
  | Return a => body
  | Raise e =>
      match handler e with
      | Some h => Act (trace body ++ trace h) (outcome h)
      | None => body
      end
  end.

(** ** The host: operating system and Python library

    [exec] is what happens when the operating system is asked to run a
    command line.  [json_loads] is [json.loads], answering either the text
    of the JSONDecodeError it raises or the decoded value; [py_repr] is
    [repr] on decoded values; [str_CalledProcessError] is the text of a
    CalledProcessError built from an exit status and a command.  The one
    fact about the decoder that is assumed is that it refuses the empty
    text, with the message CPython gives.

    A process that was started ends with an exit status (negative when a
    signal killed it) and the text it wrote to stdout and stderr, or with
    output that is no text in the encoding in use, which [text=True] turns
    into a UnicodeDecodeError whatever the exit status; one that could not
    be started is either not there or fails with the OSError of some errno.
    Python raises the OSError of errno 2 as a FileNotFoundError.

    [str_strip] is [str.strip()]. *)

Inductive Execution : Type :=
| Exited (returncode : Z) (stdout stderr : string)
| NotFound
| SpawnError (errno : Z)
| Garbled (text : string).

Record Host : Type := {
  exec : list string -> Execution;
  json_loads : string -> string + json;
  py_repr : json -> string;
  str_CalledProcessError : Z -> list string -> string;
  str_strip : string -> string;
  json_loads_empty :
    json_loads "" = inl "Expecting value: line 1 column 1 (char 0)"
}.

Record CompletedProcess : Type := {
  cp_args : list string;
  cp_returncode : Z;
  cp_stdout : string;
  cp_stderr : string
}.

(** ** Python built-ins used by the script *)

(** [str(v)]: a str is itself, anything else is its repr. *)
Definition py_str (host : Host) (v : json) : string :=
  match v with
  | JStr s => s
  | _ => py_repr host v
  end.

(** [sep.join(l)]. *)
Fixpoint join (sep : string) (l : list string) : string :=
  match l with
  | [] => ""
  | [x] => x
  | x :: l' => x +:+ sep +:+ join sep l'
  end.

(** [o.get(key, default)]: only a dict has the method. *)
Definition get (o : json) (key : string) (dflt : json) : Action json :=
  match o with
  | JDict d => mret (default dflt (d !! key))
  | _ => raise (AttributeError
                  ("'" +:+ type_name o +:+ "' object has no attribute 'get'"))
  end.

Definition loads (host : Host) (s : string) : Action json :=
  match json_loads host s with
  | inr v => mret v
  | inl text => raise (JSONDecodeError text)
  end.

(** [subprocess.run(cmd, capture_output=True, text=True, check=True)]. *)
Definition subprocess_run (host : Host) (cmd : list string)
    : Action CompletedProcess :=
  Act [Exec cmd]
    match exec host cmd with
    | Exited rc out err =>
        if decide (rc = 0)
        then Return {| cp_args := cmd; cp_returncode := rc;
                       cp_stdout := out; cp_stderr := err |}
        else Raise (CalledProcessError rc cmd out err)
    | NotFound => Raise (FileNotFoundError (default "" (head cmd)))
    | SpawnError n =>
        if decide (n = 2)
        then Raise (FileNotFoundError (default "" (head cmd)))
        else Raise (OSError n (default "" (head cmd)))
    | Garbled text => Raise (UnicodeDecodeError text)
    end.

Definition print (line : string) : Action unit := Act [Print line] (Return tt).

(** ** class FlyCLIAgent *)

Record FlyCLIAgent : Type := { fly_command : string }.

Definition not_found_message : string :=
  "Fly CLI not found. Please install it with: " +:+
  "dart pub global activate fly_cli".

Section Agent.
Variable host : Host.
Variable self : FlyCLIAgent.

Definition _verify_installation : Action unit :=
  try_except
    (result ← subprocess_run host [fly_command self; "--version"];
     print ("✅ Fly CLI found: " +:+ str_strip host (cp_stdout result)))
    (fun e =>
       match e with
       | CalledProcessError _ _ _ _ | FileNotFoundError _ =>
           Some (raise (RuntimeError not_found_message))
       | _ => None
       end).

(** Line 62: the command line of every call. *)
Definition command_line (args : list string) : list string :=
  [fly_command self] ++ args ++ ["--output"; "json"].

(** Line 72 reads [return json.loads(result.stdout as String)] in the
    source.  That is no Python expression: the file as shipped does not
    compile, and no call returns anything.  The line is embedded as what it
    was written to be, [json.loads(result.stdout)]; every other line is
    embedded as it stands.  Only the path through that line, a zero exit
    with decodable output, rests on this reading. *)
Definition _run_command (args : list string) : Action json :=
  let cmd := command_line args in
  try_except
    (result ← subprocess_run host cmd;
     loads host (cp_stdout result))
    (fun e =>
       match e with
       | CalledProcessError returncode cmd' stdout stderr =>
           Some (try_except
                   (error_data ← loads host stdout;
                    error ← get error_data "error" (JDict ∅);
                    message ← get error "message"
                      (JStr (str_CalledProcessError host returncode cmd'));
                    raise (RuntimeError
                             ("Fly CLI error: " +:+ py_str host message)))
                   (fun e' =>
                      match e' with
                      | JSONDecodeError _ =>
                          Some (raise (RuntimeError
                                  ("Fly CLI command failed: " +:+ stderr)))
                      | _ => None
                      end))
       | JSONDecodeError text =>
           Some (raise (RuntimeError
                   ("Invalid JSON response from Fly CLI: " +:+ text)))
       | _ => None
       end).

(** *** The public methods

    Each builds its [args] list and hands it to [_run_command]; the list
    is a definition of its own so that it can be spoken about.  A
    parameter whose default is None is an [option]. *)

Definition create_project_args (name template organization : string)
    (platforms : option (list string)) (plan : bool) : list string :=
  let platforms :=
    match platforms with
    | None => ["ios"; "android"]
    | Some given => given
    end in
  let args :=
    ["create"; name; "--template"; template;
     "--organization"; organization] in
  let args :=
    match platforms with
    | [] => args
    | _ :: _ => args ++ ["--platforms"; join "," platforms]
    end in
  let args := if plan then args ++ ["--plan"] else args in
  args.

Definition create_project name template organization platforms plan
    : Action json :=
  _run_command (create_project_args name template organization platforms plan).

Definition add_screen_args (name feature screen_type : string)
    (with_viewmodel with_tests : bool) : list string :=
  let args := ["add"; "screen"; name; "--feature"; feature;
               "--type"; screen_type] in
  let args :=
    if with_viewmodel then args ++ ["--with-viewmodel=true"] else args in
  let args := if with_tests then args ++ ["--with-tests=true"] else args in
  args.

Definition add_screen name feature screen_type with_viewmodel with_tests
    : Action json :=
  _run_command
    (add_screen_args name feature screen_type with_viewmodel with_tests).

Definition add_service_args (name feature service_type : string)
    (base_url : option string) (with_tests with_mocks : bool)
    : list string :=
  let args := ["add"; "service"; name; "--feature"; feature;
               "--type"; service_type] in
  let args :=
    match base_url with
    | None | Some "" => args
    | Some url => args ++ ["--base-url"; url]
    end in
  let args := if with_tests then args ++ ["--with-tests=true"] else args in
  let args := if with_mocks then args ++ ["--with-mocks=true"] else args in
  args.

Definition add_service name feature service_type base_url with_tests
    with_mocks : Action json :=
  _run_command
    (add_service_args name feature service_type base_url with_tests
       with_mocks).

Definition export_context_args (output_file : string)
    (include_dependencies include_structure include_conventions : bool)
    : list string :=
  let args := ["context"; "export"; "--output-file"; output_file] in
  let args :=
    if include_dependencies then args ++ ["--include-dependencies"]
    else args in
  let args :=
    if include_structure then args ++ ["--include-structure"] else args in
  let args :=
    if include_conventions then args ++ ["--include-conventions"]
    else args in
  args.

Definition export_context output_file include_dependencies
    include_structure include_conventions : Action json :=
  _run_command
    (export_context_args output_file include_dependencies include_structure
       include_conventions).

Definition export_schema_args (command : option string) : list string :=
  let args := ["schema"; "export"] in
  match command with
  | None | Some "" => args
  | Some c => args ++ ["--command"; c]
  end.

Definition export_schema command : Action json :=
  _run_command (export_schema_args command).

Definition doctor : Action json := _run_command ["doctor"].

Definition version : Action json := _run_command ["version"].

End Agent.

(** [FlyCLIAgent(fly_command)]: the constructor stores the command and
    probes for it. *)
Definition __init__ (host : Host) (fly_command : string)
    : Action FlyCLIAgent :=
  let self := {| fly_command := fly_command |} in
  _ ← _verify_installation host self;
  mret self.

(** *** Calls

    A call of one of the public methods, with its arguments, and the
    dispatch to the method. *)

Inductive Call : Type :=
| CreateProject (name template organization : string)
    (platforms : option (list string)) (plan : bool)
| AddScreen (name feature screen_type : string)
    (with_viewmodel with_tests : bool)
| AddService (name feature service_type : string) (base_url : option string)
    (with_tests with_mocks : bool)
| ExportContext (output_file : string)
    (include_dependencies include_structure include_conventions : bool)
| ExportSchema (command : option string)
| Doctor
| Version.

Definition invoke (host : Host) (self : FlyCLIAgent) (c : Call)
    : Action json :=
  match c with
  | CreateProject n t o p plan => create_project host self n t o p plan
  | AddScreen n f ty vm ts => add_screen host self n f ty vm ts
  | AddService n f ty url ts mk => add_service host self n f ty url ts mk
  | ExportContext out d s cv => export_context host self out d s cv
  | ExportSchema command => export_schema host self command
  | Doctor => doctor host self
  | Version => version host self
  end.

(** The [args] list the called method builds. *)
Definition args_of (c : Call) : list string :=
  match c with
  | CreateProject n t o p plan => create_project_args n t o p plan
  | AddScreen n f ty vm ts => add_screen_args n f ty vm ts
  | AddService n f ty url ts mk => add_service_args n f ty url ts mk
  | ExportContext out d s cv => export_context_args out d s cv
  | ExportSchema command => export_schema_args command
  | Doctor => ["doctor"]
  | Version => ["version"]
  end.

(** The defaults of the signatures (lines 87-90, 121-123, 154-157, 189-192,
    216). *)
Module Default.
Definition template : string := "riverpod".
Definition organization : string := "com.example".
Definition platforms : option (list string) := None.
Definition plan : bool := false.
Definition screen_type : string := "generic".
Definition with_viewmodel : bool := true.
Definition with_tests : bool := true.
Definition service_type : string := "api".
Definition base_url : option string := None.
Definition with_mocks : bool := true.
Definition output_file : string := ".ai/project_context.md".
Definition include_dependencies : bool := true.
Definition include_structure : bool := true.
Definition include_conventions : bool := true.
Definition command : option string := None.
End Default.

(** ** The failure kinds of the specification

    The specification names four kinds of failure.  The script raises
    RuntimeError at four places and tells them apart by the fixed text the
    message starts with; any other exception is none of the four. *)

Inductive BridgeError : Type :=
| ToolNotInstalled (remediation : string)
| ToolNotInvocable
| ToolReportedError (message : string)
| InvalidSuccessPayload (detail : string).

Fixpoint strip_prefix (p s : string) : option string :=
  match p with
  | EmptyString => Some s
  | String a p' =>
      match s with
      | String b s' => if Ascii.eqb a b then strip_prefix p' s' else None
      | EmptyString => None
      end
  end.

Definition bridge_error (e : Exception) : option BridgeError :=
  match e with
  | RuntimeError msg =>
      match strip_prefix "Fly CLI not found. Please install it with: " msg with
      | Some r => Some (ToolNotInstalled r)
      | None =>
      match strip_prefix "Fly CLI error: " msg with
      | Some m => Some (ToolReportedError m)
      | None =>
      match strip_prefix "Fly CLI command failed: " msg with
      | Some m => Some (ToolReportedError m)
      | None =>
      match strip_prefix "Invalid JSON response from Fly CLI: " msg with
      | Some d => Some (InvalidSuccessPayload d)
      | None => None
      end end end end
  | _ => None
  end.

(** [a] ends by raising [e], and [e] is the failure kind [b]. *)
Definition fails_with {A} (a : Action A) (e : Exception) (b : BridgeError)
    : Prop :=
  outcome a = Raise e /\ bridge_error e = Some b.

(** ** The command-line entry point: main()

    [main] builds an argparse parser, parses the command line and acts on
    the namespace it gets.  The namespace is the input here.  An attribute
    that the chosen sub-parser does not define is absent from it, and
    reading it raises AttributeError; [command] is always there and is None
    when no sub-command was given.

    Besides the host, [main] needs [json.dumps(result, indent=2)], the help
    text that [parser.print_help()] writes, and the text of an OSError. *)

Record Console : Type := {
  json_dumps : json -> string;
  help_text : string;
  str_OSError : Z -> string -> string
}.

Record Namespace : Type := {
  ns_command : option string;
  ns_name : option string;
  ns_template : option string;
  ns_organization : option string;
  ns_platforms : option (list string);
  ns_plan : option bool;
  ns_feature : option string;
  ns_type : option string;
  ns_with_viewmodel : option bool;
  ns_with_tests : option bool;
  ns_base_url : option (option string);
  ns_with_mocks : option bool;
  ns_output_file : option string;
  ns_include_dependencies : option bool;
  ns_include_structure : option bool;
  ns_include_conventions : option bool
}.

(** [args.attr], where [field] is what the namespace holds for [attr]. *)
Definition getattr {A} (attr : string) (field : option A) : Action A :=
  match field with
  | Some a => mret a
  | None => raise (AttributeError
                     ("'Namespace' object has no attribute '" +:+ attr +:+
                      "'"))
  end.

(** [str(e)]: an exception built from one message is that message; a
    FileNotFoundError is the OSError with errno 2. *)
Definition str_Exception (host : Host) (console : Console) (e : Exception)
    : string :=
  match e with
  | RuntimeError msg | AttributeError msg => msg
  | JSONDecodeError text | UnicodeDecodeError text => text
  | CalledProcessError rc cmd _ _ => str_CalledProcessError host rc cmd
  | FileNotFoundError filename => str_OSError console 2 filename
  | OSError errno filename => str_OSError console errno filename
  end.

(** How the program ended: what it ran and printed to stdout, in order,
    what it then printed to stderr, and its exit status.  Each entry of
    [stderr_lines] is the text of one call of [print], which may hold
    newlines of its own. *)
Record Finished : Type := {
  ran : list Event;
  stderr_lines : list string;
  exit_status : Z
}.

(** Lines 305-345: the chain of comparisons on [args.command].  The answer
    is the result to print, or None after the unknown-command line. *)
Definition dispatch (host : Host) (agent : FlyCLIAgent) (args : Namespace)
    (command : string) : Action (option json) :=
  if String.eqb command "create" then
    name ← getattr "name" (ns_name args);
    template ← getattr "template" (ns_template args);
    organization ← getattr "organization" (ns_organization args);
    platforms ← getattr "platforms" (ns_platforms args);
    plan ← getattr "plan" (ns_plan args);
    result ← create_project host agent name template organization
               (Some platforms) plan;
    mret (Some result)
  else if String.eqb command "add-screen" then
    name ← getattr "name" (ns_name args);
    feature ← getattr "feature" (ns_feature args);
    screen_type ← getattr "type" (ns_type args);
    with_viewmodel ← getattr "with_viewmodel" (ns_with_viewmodel args);
    with_tests ← getattr "with_tests" (ns_with_tests args);
    result ← add_screen host agent name feature screen_type with_viewmodel
               with_tests;
    mret (Some result)
  else if String.eqb command "add-service" then
    name ← getattr "name" (ns_name args);
    feature ← getattr "feature" (ns_feature args);
    service_type ← getattr "type" (ns_type args);
    base_url ← getattr "base_url" (ns_base_url args);
    with_tests ← getattr "with_tests" (ns_with_tests args);
    with_mocks ← getattr "with_mocks" (ns_with_mocks args);
    result ← add_service host agent name feature service_type base_url
               with_tests with_mocks;
    mret (Some result)
  else if String.eqb command "export-context" then
    output_file ← getattr "output_file" (ns_output_file args);
    include_dependencies ←
      getattr "include_dependencies" (ns_include_dependencies args);
    include_structure ←
      getattr "include_structure" (ns_include_structure args);
    include_conventions ←
      getattr "include_conventions" (ns_include_conventions args);
    result ← export_context host agent output_file include_dependencies
               include_structure include_conventions;
    mret (Some result)
  else if String.eqb command "export-schema" then
    result ← export_schema host agent (Some command);
    mret (Some result)
  else if String.eqb command "doctor" then
    result ← doctor host agent;
    mret (Some result)
  else if String.eqb command "version" then
    result ← version host agent;
    mret (Some result)
  else
    _ ← print ("Unknown command: " +:+ command);
    mret None.

(** Lines 303-347: the body of the [try]. *)
Definition try_body (host : Host) (console : Console) (args : Namespace)
    (command : string) : Action unit :=
  agent ← __init__ host "fly";
  found ← dispatch host agent args command;
  match found with
  | Some result => print (json_dumps console result)
  | None => mret tt
  end.

(** Lines 296-351, from the parsed namespace on: the help text when there
    is no command, else the [try] and its [except Exception]. *)
Definition main (host : Host) (console : Console) (args : Namespace)
    : Finished :=
  match ns_command args with
  | None | Some "" =>
      {| ran := [Print (help_text console)];
         stderr_lines := [];
         exit_status := 0 |}
  | Some command =>
      let body := try_body host console args command in
      match outcome body with
      | Return _ =>
          {| ran := trace body; stderr_lines := []; exit_status := 0 |}
      | Raise e =>
          {| ran := trace body;
             stderr_lines := ["Error: " +:+ str_Exception host console e];
             exit_status := 1 |}
      end
  end.

(** The rest of the [try] once the agent for [fly] is there. *)
Definition after_probe (host : Host) (console : Console) (args : Namespace)
    (command : string) : Action unit :=
  found ← dispatch host {| fly_command := "fly" |} args command;
  match found with
  | Some result => print (json_dumps console result)
  | None => mret tt
  end.

(** The command lines that were run, in order. *)
Definition processes (events : list Event) : list (list string) :=
  omap (fun e => match e with Exec argv => Some argv | Print _ => None end)
    events.

(** The same library on another operating system. *)
Definition with_exec (host : Host) (exec' : list string -> Execution)
    : Host :=
  {| exec := exec';
     json_loads := json_loads host;
     py_repr := py_repr host;
     str_CalledProcessError := str_CalledProcessError host;
     str_strip := str_strip host;
     json_loads_empty := json_loads_empty host |}.

(** ** A sample host

    Used to run the model on concrete inputs.  Its decoder knows the four
    documents below and refuses every other text the way [json.loads]
    refuses a text that does not start a value; its [repr] covers None,
    bool and int; the text of its CalledProcessError is CPython's for a
    positive exit status and tokens that need no escaping; its [strip]
    knows ASCII white space only. *)

Definition quoted (s : string) : string :=
  String "034" (s +:+ String "034" "").

(** The document [{"error": {"message": "boom"}}]. *)
Definition boom_document : string :=
  "{" +:+ quoted "error" +:+ ": {" +:+ quoted "message" +:+ ": " +:+
  quoted "boom" +:+ "}}".

(** The document [{"error": "boom"}]. *)
Definition flat_document : string :=
  "{" +:+ quoted "error" +:+ ": " +:+ quoted "boom" +:+ "}".

Definition sample_loads (s : string) : string + json :=
  if String.eqb s boom_document
  then inr (JDict {[ "error" := JDict {[ "message" := JStr "boom" ]} ]})
  else if String.eqb s flat_document
  then inr (JDict {[ "error" := JStr "boom" ]})
  else if String.eqb s "{}" then inr (JDict ∅)
  else if String.eqb s "[]" then inr (JList [])
  else inl "Expecting value: line 1 column 1 (char 0)".

Definition sample_repr (v : json) : string :=
  match v with
  | JNone => "None"
  | JBool true => "True"
  | JBool false => "False"
  | JInt z => pretty z
  | _ => "..."
  end.

Definition sample_str_CalledProcessError (rc : Z) (cmd : list string)
    : string :=
  "Command '[" +:+ join ", " ((fun t => "'" +:+ t +:+ "'") <$> cmd) +:+
  "]' returned non-zero exit status " +:+ pretty rc +:+ ".".

(** White space removed at both ends, for text whose ends are ASCII. *)
Definition is_ascii_space (a : ascii) : bool :=
  let n := nat_of_ascii a in
  (Nat.leb 9 n && Nat.leb n 13) || (Nat.leb 28 n && Nat.leb n 32).

Fixpoint ascii_lstrip (s : string) : string :=
  match s with
  | String a s' => if is_ascii_space a then ascii_lstrip s' else s
  | EmptyString => EmptyString
  end.

Fixpoint reverse_onto (s acc : string) : string :=
  match s with
  | String a s' => reverse_onto s' (String a acc)
  | EmptyString => acc
  end.

Definition sample_strip (s : string) : string :=
  reverse_onto (ascii_lstrip (reverse_onto (ascii_lstrip s) "")) "".

Definition sample_host (e : Execution) : Host :=
  {| exec := fun _ => e;
     json_loads := sample_loads;
     py_repr := sample_repr;
     str_CalledProcessError := sample_str_CalledProcessError;
     str_strip := sample_strip;
     json_loads_empty := eq_refl |}.

Definition fly : FlyCLIAgent := {| fly_command := "fly" |}.

(** A sample host on which the probe ends one way and every other command
    another way. *)
Definition scripted_host (probe command : Execution) : Host :=
  with_exec (sample_host command)
    (fun argv =>
       if decide (argv = ["fly"; "--version"]) then probe else command).

(** A sample console: [json.dumps] on None, bool, int and the empty list
    and dict; CPython's text of an OSError for the two errnos used below. *)
Definition sample_dumps (v : json) : string :=
  match v with
  | JNone => "null"
  | JBool true => "true"
  | JBool false => "false"
  | JInt z => pretty z
  | JList [] => "[]"
  | JDict [] => "{}"
  | _ => "..."
  end.

Definition sample_str_OSError (errno : Z) (filename : string) : string :=
  "[Errno " +:+ pretty errno +:+ "] " +:+
  (if decide (errno = 2) then "No such file or directory"
   else "Permission denied") +:+
  ": '" +:+ filename +:+ "'".

Definition sample_console : Console :=
  {| json_dumps := sample_dumps;
     help_text := "usage: fly_agent.py [-h] ...";
     str_OSError := sample_str_OSError |}.

(** The namespace of a sub-command without arguments of its own. *)
Definition bare_namespace (command : option string) : Namespace :=
  {| ns_command := command;
     ns_name := None; ns_template := None; ns_organization := None;
     ns_platforms := None; ns_plan := None; ns_feature := None;
     ns_type := None; ns_with_viewmodel := None; ns_with_tests := None;
     ns_base_url := None; ns_with_mocks := None; ns_output_file := None;
     ns_include_dependencies := None; ns_include_structure := None;
     ns_include_conventions := None |}.

(** The namespace of [create my_app] with the parser's defaults. *)
Definition create_namespace : Namespace :=
  {| ns_command := Some "create";
     ns_name := Some "my_app"; ns_template := Some "riverpod";
     ns_organization := Some "com.example";
     ns_platforms := Some ["ios"; "android"]; ns_plan := Some false;
     ns_feature := None;
     ns_type := None; ns_with_viewmodel := None; ns_with_tests := None;
     ns_base_url := None; ns_with_mocks := None; ns_output_file := None;
     ns_include_dependencies := None; ns_include_structure := None;
     ns_include_conventions := None |}.

(** * Properties *)

(** ** Actions form a monad *)

Lemma action_eta {A} (m : Action A) : Act (trace m) (outcome m) = m.
Proof. by destruct m. Qed.

Lemma action_left_id {A B} (a : A) (f : A -> Action B) : mret a ≫= f = f a.
Proof. apply action_eta. Qed.

Lemma action_right_id {A} (m : Action A) : m ≫= mret = m.
Proof.
  destruct m as [t [a|e]]; unfold mbind, Action_bind; cbn; [|done].
  by rewrite app_nil_r.
Qed.

Lemma action_assoc {A B C} (m : Action A) (f : A -> Action B)
    (g : B -> Action C) :
  (m ≫= f) ≫= g = m ≫= (fun a => f a ≫= g).
Proof.
  destruct m as [t [a|e]]; unfold mbind, Action_bind; cbn; [|done].
  destruct (f a) as [t' [b|e]]; cbn; [|done].
  by rewrite app_assoc.
Qed.

(** A [try] whose handler names no exception is its body. *)
Lemma try_except_none {A} (body : Action A) :
  try_except body (fun _ => None) = body.
Proof. unfold try_except. by destruct (outcome body). Qed.

(** ** Reading failures *)

Lemma strip_prefix_app (p s : string) : strip_prefix p (p +:+ s) = Some s.
Proof.
  induction p as [|a p IH]; [done|].
  change (String a p +:+ s) with (String a (p +:+ s)).
  cbn [strip_prefix]. by rewrite Ascii.eqb_refl.
Qed.

Lemma bridge_error_reported (m : string) :
  bridge_error (RuntimeError ("Fly CLI error: " +:+ m))
  = Some (ToolReportedError m).
Proof. reflexivity. Qed.

Lemma bridge_error_failed (m : string) :
  bridge_error (RuntimeError ("Fly CLI command failed: " +:+ m))
  = Some (ToolReportedError m).
Proof. reflexivity. Qed.

Lemma bridge_error_invalid (d : string) :
  bridge_error (RuntimeError ("Invalid JSON response from Fly CLI: " +:+ d))
  = Some (InvalidSuccessPayload d).
Proof. reflexivity. Qed.

Lemma bridge_error_not_found :
  bridge_error (RuntimeError not_found_message)
  = Some (ToolNotInstalled "dart pub global activate fly_cli").
Proof. reflexivity. Qed.

(** ** Running a command: one equation per way the process can end *)

(** What [subprocess.run] with [check=True] does, by the way the process
    ended. *)
Lemma subprocess_run_zero host cmd out err :
  exec host cmd = Exited 0 out err ->
  subprocess_run host cmd
  = Act [Exec cmd]
      (Return {| cp_args := cmd; cp_returncode := 0;
                 cp_stdout := out; cp_stderr := err |}).
Proof. intros H. unfold subprocess_run. by rewrite H. Qed.

Lemma subprocess_run_nonzero host cmd rc out err :
  exec host cmd = Exited rc out err -> rc <> 0 ->
  subprocess_run host cmd
  = Act [Exec cmd] (Raise (CalledProcessError rc cmd out err)).
Proof.
  intros H Hrc. unfold subprocess_run. rewrite H.
  by destruct (decide (rc = 0)).
Qed.

Lemma subprocess_run_not_found host cmd :
  exec host cmd = NotFound ->
  subprocess_run host cmd
  = Act [Exec cmd] (Raise (FileNotFoundError (default "" (head cmd)))).
Proof. intros H. unfold subprocess_run. by rewrite H. Qed.

Lemma subprocess_run_spawn_error host cmd n :
  exec host cmd = SpawnError n -> n <> 2 ->
  subprocess_run host cmd
  = Act [Exec cmd] (Raise (OSError n (default "" (head cmd)))).
Proof.
  intros H Hn. unfold subprocess_run. rewrite H.
  by destruct (decide (n = 2)).
Qed.

Lemma subprocess_run_enoent host cmd :
  exec host cmd = SpawnError 2 ->
  subprocess_run host cmd
  = Act [Exec cmd] (Raise (FileNotFoundError (default "" (head cmd)))).
Proof. intros H. unfold subprocess_run. by rewrite H. Qed.

Lemma subprocess_run_garbled host cmd text :
  exec host cmd = Garbled text ->
  subprocess_run host cmd = Act [Exec cmd] (Raise (UnicodeDecodeError text)).
Proof. intros H. unfold subprocess_run. by rewrite H. Qed.

Lemma loads_inr host s v : json_loads host s = inr v -> loads host s = mret v.
Proof. intros H. unfold loads. by rewrite H. Qed.

Lemma loads_inl host s text :
  json_loads host s = inl text -> loads host s = raise (JSONDecodeError text).
Proof. intros H. unfold loads. by rewrite H. Qed.

Ltac run_script :=
  unfold try_except, get, print, raise, mbind, mret, Action_bind, Action_ret;
  cbn.

Section Run.
Variable host : Host.
Variable self : FlyCLIAgent.
Variable args : list string.

Local Abbreviation cmd := (command_line self args).

Lemma run_zero_valid out err v :
  exec host cmd = Exited 0 out err ->
  json_loads host out = inr v ->
  _run_command host self args = Act [Exec cmd] (Return v).
Proof.
  intros Hexec Hjson. unfold _run_command.
  rewrite (subprocess_run_zero _ _ _ _ Hexec).
  cbn [mbind Action_bind outcome trace cp_stdout].
  rewrite (loads_inr _ _ _ Hjson). reflexivity.
Qed.

Lemma run_zero_invalid out err text :
  exec host cmd = Exited 0 out err ->
  json_loads host out = inl text ->
  _run_command host self args
  = Act [Exec cmd]
      (Raise (RuntimeError ("Invalid JSON response from Fly CLI: " +:+ text))).
Proof.
  intros Hexec Hjson. unfold _run_command.
  rewrite (subprocess_run_zero _ _ _ _ Hexec).
  cbn [mbind Action_bind outcome trace cp_stdout].
  rewrite (loads_inl _ _ _ Hjson). reflexivity.
Qed.

Lemma run_nonzero_undecodable rc out err text :
  exec host cmd = Exited rc out err -> rc <> 0 ->
  json_loads host out = inl text ->
  _run_command host self args
  = Act [Exec cmd]
      (Raise (RuntimeError ("Fly CLI command failed: " +:+ err))).
Proof.
  intros Hexec Hrc Hjson. unfold _run_command.
  rewrite (subprocess_run_nonzero _ _ _ _ _ Hexec Hrc).
  unfold try_except at 1. cbn [mbind Action_bind outcome trace].
  rewrite (loads_inl _ _ _ Hjson). reflexivity.
Qed.

(** A decoded dict: the message is [error.message] when [error] is there
    and is a dict, the text of the CalledProcessError when a key is
    missing. *)
Lemma run_nonzero_dict rc out err d :
  exec host cmd = Exited rc out err -> rc <> 0 ->
  json_loads host out = inr (JDict d) ->
  _run_command host self args
  = Act [Exec cmd]
      match default (JDict ∅) (d !! "error") with
      | JDict e =>
          Raise (RuntimeError
                   ("Fly CLI error: " +:+
                    py_str host
                      (default (JStr (str_CalledProcessError host rc cmd))
                         (e !! "message"))))
      | other =>
          Raise (AttributeError
                   ("'" +:+ type_name other +:+
                    "' object has no attribute 'get'"))
      end.
Proof.
  intros Hexec Hrc Hjson. unfold _run_command.
  rewrite (subprocess_run_nonzero _ _ _ _ _ Hexec Hrc).
  unfold try_except at 1. cbn [mbind Action_bind outcome trace].
  rewrite (loads_inr _ _ _ Hjson). run_script.
  by destruct (default (JDict ∅) (d !! "error")).
Qed.

(** Decoded, but not a dict: the lookup of [get] fails and nothing
    catches it. *)
Lemma run_nonzero_not_dict rc out err v :
  exec host cmd = Exited rc out err -> rc <> 0 ->
  json_loads host out = inr v ->
  (forall d, v <> JDict d) ->
  _run_command host self args
  = Act [Exec cmd]
      (Raise (AttributeError
                ("'" +:+ type_name v +:+ "' object has no attribute 'get'"))).
Proof.
  intros Hexec Hrc Hjson Hv. unfold _run_command.
  rewrite (subprocess_run_nonzero _ _ _ _ _ Hexec Hrc).
  unfold try_except at 1. cbn [mbind Action_bind outcome trace].
  rewrite (loads_inr _ _ _ Hjson). run_script.
  destruct v; try reflexivity. by destruct (Hv d).
Qed.

Lemma run_not_spawned :
  exec host cmd = NotFound ->
  _run_command host self args
  = Act [Exec cmd] (Raise (FileNotFoundError (fly_command self))).
Proof.
  intros Hexec. unfold _run_command.
  by rewrite (subprocess_run_not_found _ _ Hexec).
Qed.

Lemma run_spawn_error n :
  exec host cmd = SpawnError n -> n <> 2 ->
  _run_command host self args
  = Act [Exec cmd] (Raise (OSError n (fly_command self))).
Proof.
  intros Hexec Hn. unfold _run_command.
  by rewrite (subprocess_run_spawn_error _ _ _ Hexec Hn).
Qed.

Lemma run_enoent :
  exec host cmd = SpawnError 2 ->
  _run_command host self args
  = Act [Exec cmd] (Raise (FileNotFoundError (fly_command self))).
Proof.
  intros Hexec. unfold _run_command.
  by rewrite (subprocess_run_enoent _ _ Hexec).
Qed.

Lemma run_garbled text :
  exec host cmd = Garbled text ->
  _run_command host self args
  = Act [Exec cmd] (Raise (UnicodeDecodeError text)).
Proof.
  intros Hexec. unfold _run_command.
  by rewrite (subprocess_run_garbled _ _ _ Hexec).
Qed.

(** Whatever happens, exactly one process was asked for, with [cmd]. *)
Lemma run_trace : trace (_run_command host self args) = [Exec cmd].
Proof.
  destruct (exec host cmd) as [rc out err| |n|garbage] eqn:Hexec.
  - destruct (decide (rc = 0)) as [->|Hrc];
      destruct (json_loads host out) as [text|v] eqn:Hjson.
    + by erewrite run_zero_invalid.
    + by erewrite run_zero_valid.
    + by erewrite run_nonzero_undecodable.
    + destruct v;
        solve [ by erewrite run_nonzero_dict
              | by erewrite run_nonzero_not_dict ].
  - by rewrite run_not_spawned.
  - destruct (decide (n = 2)) as [->|Hn].
    + by rewrite run_enoent.
    + by erewrite run_spawn_error.
  - by erewrite run_garbled.
Qed.

End Run.

(** ** The bridge: decoding what the process answered *)

(** C1. When the process exits non-zero: if its stdout decodes to a dict
    whose [error] entry is a dict with a [message] string [m], the call
    raises RuntimeError with [m] after the fixed text of a tool-reported
    error; if its stdout does not decode, the call raises RuntimeError with
    the captured stderr, unchanged, after the fixed text of a failed
    command.  Both are the failure kind ToolReportedError, with message [m]
    and with message stderr. *)
Theorem nonzero_exit_is_tool_reported_error
    host self args rc out err :
  exec host (command_line self args) = Exited rc out err ->
  rc <> 0 ->
  (forall d e m,
     json_loads host out = inr (JDict d) ->
     d !! "error" = Some (JDict e) ->
     e !! "message" = Some (JStr m) ->
     fails_with (_run_command host self args)
       (RuntimeError ("Fly CLI error: " +:+ m)) (ToolReportedError m))
  /\ (forall text,
        json_loads host out = inl text ->
        fails_with (_run_command host self args)
          (RuntimeError ("Fly CLI command failed: " +:+ err))
          (ToolReportedError err)).
Proof.
  intros Hexec Hrc. split.
  - intros d e m Hjson Herror Hmessage. split.
    + rewrite (run_nonzero_dict _ _ _ _ _ _ _ Hexec Hrc Hjson).
      cbn [outcome]. rewrite Herror. cbn.
      rewrite Hmessage. reflexivity.
    + apply bridge_error_reported.
  - intros text Hjson. split.
    + by rewrite (run_nonzero_undecodable _ _ _ _ _ _ _ Hexec Hrc Hjson).
    + apply bridge_error_failed.
Qed.

Lemma nonzero_exit_is_tool_reported_error_witness :
  fails_with
    (_run_command (sample_host (Exited 1 boom_document "")) fly ["doctor"])
    (RuntimeError "Fly CLI error: boom") (ToolReportedError "boom")
  /\ fails_with
       (_run_command (sample_host (Exited 1 "oops" "disk full")) fly
          ["doctor"])
       (RuntimeError "Fly CLI command failed: disk full")
       (ToolReportedError "disk full").
Proof.
  split.
  - refine (proj1 (nonzero_exit_is_tool_reported_error
                     (sample_host (Exited 1 boom_document "")) fly ["doctor"]
                     1 boom_document "" eq_refl _)
              {[ "error" := JDict {[ "message" := JStr "boom" ]} ]}
              {[ "message" := JStr "boom" ]} "boom" _ _ _);
      [lia | reflexivity | vm_compute; reflexivity | vm_compute; reflexivity].
  - refine (proj2 (nonzero_exit_is_tool_reported_error
                     (sample_host (Exited 1 "oops" "disk full")) fly
                     ["doctor"] 1 "oops" "disk full" eq_refl _)
              "Expecting value: line 1 column 1 (char 0)" _);
      [lia | reflexivity].
Defined.

(** The path through line 72, under the reading given at [_run_command]:
    when the process exits with status 0 and its stdout decodes, the call
    returns the decoded value and raises nothing.  As shipped the line does
    not parse, which is what is recorded for C2. *)
Theorem zero_exit_returns_decoded host self args out err v :
  exec host (command_line self args) = Exited 0 out err ->
  json_loads host out = inr v ->
  outcome (_run_command host self args) = Return v
  /\ forall e, outcome (_run_command host self args) <> Raise e.
Proof.
  intros Hexec Hjson.
  rewrite (run_zero_valid _ _ _ _ _ _ Hexec Hjson). by split.
Qed.

Lemma zero_exit_returns_decoded_witness :
  outcome (_run_command (sample_host (Exited 0 "{}" "")) fly ["version"])
  = Return (JDict ∅).
Proof.
  refine (proj1 (zero_exit_returns_decoded
                   (sample_host (Exited 0 "{}" "")) fly ["version"]
                   "{}" "" (JDict ∅) eq_refl eq_refl)).
Defined.



(** C4. When the executable cannot be started because it is not there, the
    call ends with the FileNotFoundError of [subprocess.run] itself: no
    except clause of [_run_command] names it, so it is not turned into a
    RuntimeError and is none of the four failure kinds.  (The probe, in
    contrast, catches the same exception: see
    [probe_fails_with_tool_not_installed].) *)
Theorem missing_executable_escapes host self args :
  exec host (command_line self args) = NotFound ->
  outcome (_run_command host self args)
  = Raise (FileNotFoundError (fly_command self))
  /\ bridge_error (FileNotFoundError (fly_command self)) = None.
Proof.
  intros Hexec. by rewrite (run_not_spawned _ _ _ Hexec).
Qed.

Lemma missing_executable_escapes_witness :
  outcome (_run_command (sample_host NotFound) fly ["doctor"])
  = Raise (FileNotFoundError "fly").
Proof.
  refine (proj1 (missing_executable_escapes (sample_host NotFound) fly
                   ["doctor"] eq_refl)).
Defined.

(** C5. Not every way the process can end leads to a returned value or to
    one of the four failure kinds: when it exits non-zero and its stdout
    decodes to something that is not a dict, the call ends with the
    AttributeError of the missing [get], which nothing catches. *)
Theorem nonzero_exit_non_dict_escapes host self args rc out err v :
  exec host (command_line self args) = Exited rc out err ->
  rc <> 0 ->
  json_loads host out = inr v ->
  (forall d, v <> JDict d) ->
  outcome (_run_command host self args)
  = Raise (AttributeError
             ("'" +:+ type_name v +:+ "' object has no attribute 'get'"))
  /\ bridge_error
       (AttributeError
          ("'" +:+ type_name v +:+ "' object has no attribute 'get'"))
     = None.
Proof.
  intros Hexec Hrc Hjson Hv.
  by rewrite (run_nonzero_not_dict _ _ _ _ _ _ _ Hexec Hrc Hjson Hv).
Qed.

Lemma nonzero_exit_non_dict_escapes_witness :
  outcome (_run_command (sample_host (Exited 1 "[]" "")) fly ["doctor"])
  = Raise (AttributeError "'list' object has no attribute 'get'").
Proof.
  refine (proj1 (nonzero_exit_non_dict_escapes
                   (sample_host (Exited 1 "[]" "")) fly ["doctor"]
                   1 "[]" "" (JList []) eq_refl _ eq_refl _));
    [lia | discriminate].
Defined.

(** ** The bridge: building the command line *)

Lemma invoke_run host self c :
  invoke host self c = _run_command host self (args_of c).
Proof. by destruct c. Qed.

(** C6. For every call of a public method, the process that is asked for
    has the command line [command_line self (args_of c)], a function of the
    agent, the method and its arguments alone, and that command line ends
    with the two tokens [--output json]. *)
Theorem command_line_ends_with_output_json host self c :
  trace (invoke host self c) = [Exec (command_line self (args_of c))]
  /\ exists front,
       command_line self (args_of c) = front ++ ["--output"; "json"].
Proof.
  split.
  - rewrite invoke_run. apply run_trace.
  - exists (fly_command self :: args_of c). reflexivity.
Qed.

(** C10. With an empty platforms list, [create_project] builds no
    [--platforms] token and no value for it; with platforms absent (None)
    it builds [--platforms ios,android].  In both cases this is the command
    line the process is asked to run. *)
Theorem empty_platforms_omits_flag host self name template organization plan :
  create_project_args name template organization (Some []) plan
  = ["create"; name; "--template"; template; "--organization"; organization]
    ++ (if plan then ["--plan"] else [])
  /\ create_project_args name template organization None plan
     = ["create"; name; "--template"; template;
        "--organization"; organization; "--platforms"; "ios,android"]
       ++ (if plan then ["--plan"] else [])
  /\ trace (create_project host self name template organization (Some [])
              plan)
     = [Exec ([fly_command self; "create"; name; "--template"; template;
               "--organization"; organization]
              ++ (if plan then ["--plan"] else [])
              ++ ["--output"; "json"])].
Proof.
  repeat split.
  - by destruct plan.
  - by destruct plan.
  - unfold create_project. rewrite run_trace. by destruct plan.
Qed.

(** ** The availability probe *)

Section Probe.
Variable host : Host.
Variable self : FlyCLIAgent.

Local Abbreviation cmd := [fly_command self; "--version"].

Lemma verify_zero out err :
  exec host cmd = Exited 0 out err ->
  _verify_installation host self
  = Act [Exec cmd; Print ("✅ Fly CLI found: " +:+ str_strip host out)] (Return tt).
Proof.
  intros Hexec. unfold _verify_installation.
  by rewrite (subprocess_run_zero _ _ _ _ Hexec).
Qed.

Lemma verify_nonzero rc out err :
  exec host cmd = Exited rc out err -> rc <> 0 ->
  _verify_installation host self
  = Act [Exec cmd] (Raise (RuntimeError not_found_message)).
Proof.
  intros Hexec Hrc. unfold _verify_installation.
  by rewrite (subprocess_run_nonzero _ _ _ _ _ Hexec Hrc).
Qed.

Lemma verify_not_found :
  exec host cmd = NotFound ->
  _verify_installation host self
  = Act [Exec cmd] (Raise (RuntimeError not_found_message)).
Proof.
  intros Hexec. unfold _verify_installation.
  by rewrite (subprocess_run_not_found _ _ Hexec).
Qed.

End Probe.

(** C9. Constructing an agent runs the probe, and nothing else.  When the
    executable is not found, or its [--version] run exits non-zero, the
    probe and with it the constructor raise RuntimeError with the message
    that names the install command, the failure kind ToolNotInstalled, and
    no agent is returned.  When that run exits with status 0 the probe
    prints its confirmation line and returns normally, and the constructor
    returns the agent. *)
Theorem probe_fails_with_tool_not_installed host self :
  (exec host [fly_command self; "--version"] = NotFound
   \/ (exists rc out err,
         exec host [fly_command self; "--version"] = Exited rc out err
         /\ rc <> 0) ->
   fails_with (_verify_installation host self)
     (RuntimeError
        ("Fly CLI not found. Please install it with: " +:+
         "dart pub global activate fly_cli"))
     (ToolNotInstalled "dart pub global activate fly_cli")
   /\ __init__ host (fly_command self)
      = Act [Exec [fly_command self; "--version"]]
          (Raise
             (RuntimeError
                ("Fly CLI not found. Please install it with: " +:+
                 "dart pub global activate fly_cli"))))
  /\ (forall out err,
        exec host [fly_command self; "--version"] = Exited 0 out err ->
        _verify_installation host self
        = Act [Exec [fly_command self; "--version"];
               Print ("✅ Fly CLI found: " +:+ str_strip host out)]
            (Return tt)
        /\ __init__ host (fly_command self)
           = Act [Exec [fly_command self; "--version"];
                  Print ("✅ Fly CLI found: " +:+ str_strip host out)]
               (Return self)).
Proof.
  split.
  - intros Hprobe. split.
    + destruct Hprobe as [Hexec|(rc & out & err & Hexec & Hrc)]; split;
        try apply bridge_error_not_found.
      * by rewrite (verify_not_found _ _ Hexec).
      * by rewrite (verify_nonzero _ _ _ _ _ Hexec Hrc).
    + unfold __init__. destruct self as [command]. cbn [fly_command] in *.
      destruct Hprobe as [Hexec|(rc & out & err & Hexec & Hrc)].
      * by rewrite (verify_not_found _ {| fly_command := command |} Hexec).
      * by rewrite (verify_nonzero _ {| fly_command := command |} _ _ _
                      Hexec Hrc).
  - intros out err Hexec. split.
    + apply (verify_zero _ _ _ _ Hexec).
    + unfold __init__. destruct self as [command]. cbn [fly_command] in *.
      by rewrite (verify_zero _ {| fly_command := command |} _ _ Hexec).
Qed.

Lemma probe_fails_with_tool_not_installed_witness :
  fails_with (_verify_installation (sample_host NotFound) fly)
    (RuntimeError
       ("Fly CLI not found. Please install it with: " +:+
        "dart pub global activate fly_cli"))
    (ToolNotInstalled "dart pub global activate fly_cli")
  /\ __init__ (sample_host (Exited 127 "" "")) "fly"
     = Act [Exec ["fly"; "--version"]]
         (Raise
            (RuntimeError
               ("Fly CLI not found. Please install it with: " +:+
                "dart pub global activate fly_cli")))
  /\ __init__ (sample_host (Exited 0 "1.2.3" "")) "fly"
     = Act [Exec ["fly"; "--version"];
            Print ("✅ Fly CLI found: " +:+ sample_strip "1.2.3")]
         (Return fly).
Proof.
  split; [|split].
  - refine (proj1 (proj1 (probe_fails_with_tool_not_installed
                            (sample_host NotFound) fly)
                     (or_introl eq_refl))).
  - refine (proj2 (proj1 (probe_fails_with_tool_not_installed
                            (sample_host (Exited 127 "" "")) fly)
                     (or_intror _)));
      exists 127, "", ""; split; [reflexivity | lia].
  - refine (proj2 (proj2 (probe_fails_with_tool_not_installed
                            (sample_host (Exited 0 "1.2.3" "")) fly)
                     "1.2.3" "" eq_refl)).
Defined.

(** ** Which options are left out at their default *)

Ltac no_such_token :=
  rewrite ?not_elem_of_app, ?not_elem_of_cons in *;
  repeat split; try apply not_elem_of_nil;
  intuition (try discriminate; try congruence).

(** C7, as stated, fails: with every option of [create_project] at its
    default the command line holds [--template], and with every option of
    [add_screen] at its default it holds the view-model and the tests
    flags. *)
Lemma default_template_is_emitted :
  ("--template"
     ∈ command_line fly
         (args_of (CreateProject "my_app" Default.template
                     Default.organization Default.platforms Default.plan)))
  /\ ("--with-viewmodel=true"
        ∈ command_line fly
            (args_of (AddScreen "home" "auth" Default.screen_type
                        Default.with_viewmodel Default.with_tests))).
Proof. split; apply list_elem_of_In; cbn; tauto. Qed.

(** C7, amended.  The options that leave no token when they have their
    default are those whose default is False or None: [plan] of
    [create_project], [base_url] of [add_service], [command] of
    [export_schema]; their flag is then absent from the list (as long as no
    value supplied by the caller is that very token).  All other options
    are emitted whatever the rest of the option set is, so also at their
    default: the string options always, as a flag and its value; the
    boolean options as their flag whenever they are True, which is the
    default of all but [plan]; the platforms, when not given, as
    [--platforms ios,android]. *)
Theorem sparse_only_for_false_and_none_defaults :
  (forall name template organization platforms,
     "--plan" ∉ [name; template; organization;
                 join "," (default ["ios"; "android"] platforms)] ->
     "--plan" ∉ create_project_args name template organization platforms
                  Default.plan)
  /\ (forall name feature service_type with_tests with_mocks,
        "--base-url" ∉ [name; feature; service_type] ->
        "--base-url" ∉ add_service_args name feature service_type
                         Default.base_url with_tests with_mocks)
  /\ ("--command" ∉ export_schema_args Default.command)
  /\ (forall name template organization platforms plan,
        create_project_args name template organization platforms plan
        = ["create"; name; "--template"; template;
           "--organization"; organization]
          ++ match default ["ios"; "android"] platforms with
             | [] => []
             | p :: ps => ["--platforms"; join "," (p :: ps)]
             end
          ++ (if plan then ["--plan"] else []))
  /\ (forall name template organization plan,
        create_project_args name template organization Default.platforms
          plan
        = ["create"; name; "--template"; template;
           "--organization"; organization; "--platforms"; "ios,android"]
          ++ (if plan then ["--plan"] else []))
  /\ (forall name feature screen_type with_viewmodel with_tests,
        add_screen_args name feature screen_type with_viewmodel with_tests
        = ["add"; "screen"; name; "--feature"; feature;
           "--type"; screen_type]
          ++ (if with_viewmodel then ["--with-viewmodel=true"] else [])
          ++ (if with_tests then ["--with-tests=true"] else []))
  /\ (forall name feature service_type base_url with_tests with_mocks,
        add_service_args name feature service_type base_url with_tests
          with_mocks
        = ["add"; "service"; name; "--feature"; feature;
           "--type"; service_type]
          ++ match base_url with
             | None | Some "" => []
             | Some url => ["--base-url"; url]
             end
          ++ (if with_tests then ["--with-tests=true"] else [])
          ++ (if with_mocks then ["--with-mocks=true"] else []))
  /\ (forall output_file include_dependencies include_structure
        include_conventions,
        export_context_args output_file include_dependencies
          include_structure include_conventions
        = ["context"; "export"; "--output-file"; output_file]
          ++ (if include_dependencies then ["--include-dependencies"]
              else [])
          ++ (if include_structure then ["--include-structure"] else [])
          ++ (if include_conventions then ["--include-conventions"]
              else []))
  /\ Default.template = "riverpod"
  /\ Default.organization = "com.example"
  /\ Default.screen_type = "generic"
  /\ Default.service_type = "api"
  /\ Default.output_file = ".ai/project_context.md"
  /\ (Default.with_viewmodel, Default.with_tests, Default.with_mocks,
      Default.include_dependencies, Default.include_structure,
      Default.include_conventions)
     = (true, true, true, true, true, true).
Proof.
  split; [|split; [|split]].
  - intros name template organization platforms Hfresh.
    unfold create_project_args, Default.plan.
    destruct platforms as [[|p ps]|]; cbn [default] in Hfresh;
      no_such_token.
  - intros name feature service_type with_tests with_mocks Hfresh.
    unfold add_service_args, Default.base_url.
    destruct with_tests, with_mocks; cbn; no_such_token.
  - unfold export_schema_args, Default.command. no_such_token.
  - split; [|split; [|split; [|split; [|split; [|done]]]]].
    + intros name template organization [[|p ps]|] []; reflexivity.
    + intros name template organization []; reflexivity.
    + intros name feature screen_type [] []; reflexivity.
    + intros name feature service_type [[|a url]|] [] []; reflexivity.
    + intros output_file [] [] []; reflexivity.
Qed.

Lemma sparse_only_for_false_and_none_defaults_witness :
  ("--plan" ∉ create_project_args "my_app" "minimal" "dev.fly"
                (Some ["web"]) Default.plan)
  /\ ("--base-url" ∉ add_service_args "users" "auth" "repository"
                       Default.base_url true false).
Proof.
  split.
  - refine (proj1 sparse_only_for_false_and_none_defaults
              "my_app" "minimal" "dev.fly" (Some ["web"]) _).
    cbn. no_such_token.
  - refine (proj1 (proj2 sparse_only_for_false_and_none_defaults)
              "users" "auth" "repository" true false _).
    no_such_token.
Defined.

(** ** The worked example of the specification *)

(** C8, as stated, fails: the command line built for [my_app] with the
    default template, organization and platforms is not the one without
    the template flag. *)
Lemma create_my_app_tail_is_not_without_template :
  tail (command_line fly
          (args_of (CreateProject "my_app" "riverpod" "com.example"
                      (Some ["ios"; "android"]) false)))
  <> ["create"; "my_app"; "--organization"; "com.example";
      "--platforms"; "ios,android"; "--output"; "json"].
Proof. vm_compute. discriminate. Qed.

(** C8, amended.  [create_project] for [my_app] with template [riverpod],
    organization [com.example] and platforms [ios, android] (given, or left
    to the default) asks for the command line whose tail is
    [create my_app --template riverpod --organization com.example
    --platforms ios,android --output json]: the template flag is emitted
    although it has its default, and the platforms are joined by commas into
    one token. *)
Theorem create_my_app_command_line host self :
  let expected :=
    ["create"; "my_app"; "--template"; "riverpod";
     "--organization"; "com.example"; "--platforms"; "ios,android";
     "--output"; "json"] in
  tail (command_line self
          (args_of (CreateProject "my_app" "riverpod" "com.example"
                      (Some ["ios"; "android"]) false)))
  = expected
  /\ tail (command_line self
             (args_of (CreateProject "my_app" Default.template
                         Default.organization Default.platforms
                         Default.plan)))
     = expected
  /\ trace (create_project host self "my_app" "riverpod" "com.example"
              (Some ["ios"; "android"]) false)
     = [Exec (fly_command self :: expected)].
Proof.
  repeat split. unfold create_project. by rewrite run_trace.
Qed.

(** ** Error documents of other shapes *)

(** X1. When the process exits non-zero and its stdout decodes to a dict
    that has no [error] entry, or whose [error] dict has no [message], the
    message of the RuntimeError is the text of the CalledProcessError (the
    command and its exit status). *)
Theorem nonzero_exit_without_message_reports_status
    host self args rc out err d :
  exec host (command_line self args) = Exited rc out err ->
  rc <> 0 ->
  json_loads host out = inr (JDict d) ->
  d !! "error" = None
  \/ (exists e, d !! "error" = Some (JDict e) /\ e !! "message" = None) ->
  fails_with (_run_command host self args)
    (RuntimeError
       ("Fly CLI error: " +:+
        str_CalledProcessError host rc (command_line self args)))
    (ToolReportedError
       (str_CalledProcessError host rc (command_line self args))).
Proof.
  intros Hexec Hrc Hjson Hshape. split; [|apply bridge_error_reported].
  rewrite (run_nonzero_dict _ _ _ _ _ _ _ Hexec Hrc Hjson). cbn [outcome].
  destruct Hshape as [->|(e & -> & Hmessage)]; cbn; [done|].
  by rewrite Hmessage.
Qed.

Lemma nonzero_exit_without_message_reports_status_witness :
  outcome (_run_command (sample_host (Exited 1 "{}" "")) fly ["doctor"])
  = Raise
      (RuntimeError
         ("Fly CLI error: Command '['fly', 'doctor', '--output', 'json']' " +:+
          "returned non-zero exit status 1.")).
Proof.
  refine (proj1 (nonzero_exit_without_message_reports_status
                   (sample_host (Exited 1 "{}" "")) fly ["doctor"]
                   1 "{}" "" ∅ eq_refl _ eq_refl (or_introl eq_refl))).
  lia.
Defined.

(** X2. When the process exits non-zero and its stdout decodes to a dict
    whose [error] entry is not itself a dict (a plain string, say), the
    second [get] fails and the call ends with an AttributeError. *)
Theorem nonzero_exit_flat_error_escapes host self args rc out err d v :
  exec host (command_line self args) = Exited rc out err ->
  rc <> 0 ->
  json_loads host out = inr (JDict d) ->
  d !! "error" = Some v ->
  (forall e, v <> JDict e) ->
  outcome (_run_command host self args)
  = Raise (AttributeError
             ("'" +:+ type_name v +:+ "' object has no attribute 'get'")).
Proof.
  intros Hexec Hrc Hjson Herror Hv.
  rewrite (run_nonzero_dict _ _ _ _ _ _ _ Hexec Hrc Hjson). cbn [outcome].
  rewrite Herror. cbn.
  destruct v; try reflexivity. by destruct (Hv d0).
Qed.

Lemma nonzero_exit_flat_error_escapes_witness :
  outcome
    (_run_command (sample_host (Exited 1 flat_document "")) fly ["doctor"])
  = Raise (AttributeError "'str' object has no attribute 'get'").
Proof.
  refine (nonzero_exit_flat_error_escapes
            (sample_host (Exited 1 flat_document "")) fly ["doctor"]
            1 flat_document "" {[ "error" := JStr "boom" ]} (JStr "boom")
            eq_refl _ _ _ _);
    [lia | reflexivity | vm_compute; reflexivity | discriminate].
Defined.

(** * More of the script *)

(** ** The probe and the constructor *)

Lemma verify_spawn_error host self n :
  exec host [fly_command self; "--version"] = SpawnError n -> n <> 2 ->
  _verify_installation host self
  = Act [Exec [fly_command self; "--version"]]
      (Raise (OSError n (fly_command self))).
Proof.
  intros Hexec Hn. unfold _verify_installation.
  by rewrite (subprocess_run_spawn_error _ _ _ Hexec Hn).
Qed.

Lemma verify_enoent host self :
  exec host [fly_command self; "--version"] = SpawnError 2 ->
  _verify_installation host self
  = Act [Exec [fly_command self; "--version"]]
      (Raise (RuntimeError not_found_message)).
Proof.
  intros Hexec. unfold _verify_installation.
  by rewrite (subprocess_run_enoent _ _ Hexec).
Qed.

Lemma verify_garbled host self text :
  exec host [fly_command self; "--version"] = Garbled text ->
  _verify_installation host self
  = Act [Exec [fly_command self; "--version"]]
      (Raise (UnicodeDecodeError text)).
Proof.
  intros Hexec. unfold _verify_installation.
  by rewrite (subprocess_run_garbled _ _ _ Hexec).
Qed.

(** The constructor, by the way the probe ended. *)
Lemma init_zero host command out err :
  exec host [command; "--version"] = Exited 0 out err ->
  __init__ host command
  = Act [Exec [command; "--version"];
         Print ("✅ Fly CLI found: " +:+ str_strip host out)]
      (Return {| fly_command := command |}).
Proof.
  intros Hexec. unfold __init__.
  by rewrite (verify_zero _ {| fly_command := command |} _ _ Hexec).
Qed.

Lemma init_not_installed host command :
  exec host [command; "--version"] = NotFound
  \/ (exists rc out err,
        exec host [command; "--version"] = Exited rc out err /\ rc <> 0) ->
  __init__ host command
  = Act [Exec [command; "--version"]] (Raise (RuntimeError not_found_message)).
Proof.
  intros [Hexec|(rc & out & err & Hexec & Hrc)]; unfold __init__.
  - by rewrite (verify_not_found _ {| fly_command := command |} Hexec).
  - by rewrite (verify_nonzero _ {| fly_command := command |} _ _ _ Hexec Hrc).
Qed.

Lemma init_spawn_error host command n :
  exec host [command; "--version"] = SpawnError n -> n <> 2 ->
  __init__ host command
  = Act [Exec [command; "--version"]] (Raise (OSError n command)).
Proof.
  intros Hexec Hn. unfold __init__.
  by rewrite (verify_spawn_error _ {| fly_command := command |} _ Hexec Hn).
Qed.

Lemma init_enoent host command :
  exec host [command; "--version"] = SpawnError 2 ->
  __init__ host command
  = Act [Exec [command; "--version"]] (Raise (RuntimeError not_found_message)).
Proof.
  intros Hexec. unfold __init__.
  by rewrite (verify_enoent _ {| fly_command := command |} Hexec).
Qed.

Lemma init_garbled host command text :
  exec host [command; "--version"] = Garbled text ->
  __init__ host command
  = Act [Exec [command; "--version"]] (Raise (UnicodeDecodeError text)).
Proof.
  intros Hexec. unfold __init__.
  by rewrite (verify_garbled _ {| fly_command := command |} _ Hexec).
Qed.

(** X3. The probe catches only CalledProcessError and FileNotFoundError:
    when the executable is there but cannot be started for another reason
    (an OSError of an errno other than 2, such as a PermissionError), the
    probe and the constructor end with that OSError itself, not with the
    RuntimeError that names the install command. *)
Theorem probe_lets_other_os_errors_through host self n :
  exec host [fly_command self; "--version"] = SpawnError n ->
  n <> 2 ->
  _verify_installation host self
  = Act [Exec [fly_command self; "--version"]]
      (Raise (OSError n (fly_command self)))
  /\ outcome (__init__ host (fly_command self))
     = Raise (OSError n (fly_command self))
  /\ bridge_error (OSError n (fly_command self)) = None.
Proof.
  intros Hexec Hn. split; [|split; [|done]].
  - apply (verify_spawn_error _ _ _ Hexec Hn).
  - by rewrite (init_spawn_error _ _ _ Hexec Hn).
Qed.

Lemma probe_lets_other_os_errors_through_witness :
  outcome (__init__ (sample_host (SpawnError 13)) "fly")
  = Raise (OSError 13 "fly").
Proof.
  refine (proj1 (proj2 (probe_lets_other_os_errors_through
                          (sample_host (SpawnError 13)) fly 13 eq_refl _))).
  lia.
Defined.

(** X4. An agent exists only after a probe that exited with status 0: when
    the constructor returns, it returns the agent for the given command,
    the [--version] run of that command exited with status 0, and that run
    and the confirmation line are all the constructor did. *)
Theorem agent_exists_only_after_zero_exit_probe host command agent :
  outcome (__init__ host command) = Return agent ->
  agent = {| fly_command := command |}
  /\ exists out err,
       exec host [command; "--version"] = Exited 0 out err
       /\ trace (__init__ host command)
          = [Exec [command; "--version"];
             Print ("✅ Fly CLI found: " +:+ str_strip host out)].
Proof.
  intros Hreturn.
  destruct (exec host [command; "--version"])
    as [rc out err| |n|garbage] eqn:Hexec.
  - destruct (decide (rc = 0)) as [->|Hrc].
    + rewrite (init_zero _ _ _ _ Hexec) in *. cbn in Hreturn.
      split; [congruence|]. by exists out, err.
    + rewrite init_not_installed in Hreturn; [done|].
      right. by exists rc, out, err.
  - rewrite init_not_installed in Hreturn; [done|by left].
  - destruct (decide (n = 2)) as [->|Hn].
    + by rewrite (init_enoent _ _ Hexec) in Hreturn.
    + by rewrite (init_spawn_error _ _ _ Hexec Hn) in Hreturn.
  - by rewrite (init_garbled _ _ _ Hexec) in Hreturn.
Qed.

Lemma agent_exists_only_after_zero_exit_probe_witness :
  exists out err,
    exec (sample_host (Exited 0 "1.2.3" "")) ["fly"; "--version"]
    = Exited 0 out err
    /\ trace (__init__ (sample_host (Exited 0 "1.2.3" "")) "fly")
       = [Exec ["fly"; "--version"];
          Print ("✅ Fly CLI found: " +:+ sample_strip out)].
Proof.
  refine (proj2 (agent_exists_only_after_zero_exit_probe
                   (sample_host (Exited 0 "1.2.3" "")) "fly" fly eq_refl)).
Defined.

(** ** What a call can end with *)

(** X5. [_run_command] never lets the CalledProcessError of a non-zero exit
    or the JSONDecodeError of the decoder reach its caller, and every
    RuntimeError it raises is a tool-reported error or an invalid success
    payload. *)
Theorem run_command_keeps_process_and_decoder_errors host self args :
  (forall rc cmd out err,
     outcome (_run_command host self args)
     <> Raise (CalledProcessError rc cmd out err))
  /\ (forall text,
        outcome (_run_command host self args) <> Raise (JSONDecodeError text))
  /\ (forall msg,
        outcome (_run_command host self args) = Raise (RuntimeError msg) ->
        exists detail,
          bridge_error (RuntimeError msg) = Some (ToolReportedError detail)
          \/ bridge_error (RuntimeError msg)
             = Some (InvalidSuccessPayload detail)).
Proof.
  destruct (exec host (command_line self args))
    as [rc out err| |n|garbage] eqn:Hexec.
  - destruct (decide (rc = 0)) as [->|Hrc];
      destruct (json_loads host out) as [text|v] eqn:Hjson.
    + rewrite (run_zero_invalid _ _ _ _ _ _ Hexec Hjson). cbn.
      repeat split; try done.
      intros msg [= <-]. exists text. right. apply bridge_error_invalid.
    + rewrite (run_zero_valid _ _ _ _ _ _ Hexec Hjson). by cbn.
    + rewrite (run_nonzero_undecodable _ _ _ _ _ _ _ Hexec Hrc Hjson). cbn.
      repeat split; try done.
      intros msg [= <-]. exists err. left. apply bridge_error_failed.
    + destruct v;
        try (rewrite (run_nonzero_not_dict _ _ _ _ _ _ _ Hexec Hrc Hjson);
             by cbn).
      rewrite (run_nonzero_dict _ _ _ _ _ _ _ Hexec Hrc Hjson). cbn.
      destruct (default (JDict ∅) (d !! "error")); try done.
      repeat split; try done.
      intros msg [= <-]. eexists. left. apply bridge_error_reported.
  - rewrite (run_not_spawned _ _ _ Hexec). by cbn.
  - destruct (decide (n = 2)) as [->|Hn].
    + rewrite (run_enoent _ _ _ Hexec). by cbn.
    + rewrite (run_spawn_error _ _ _ _ Hexec Hn). by cbn.
  - rewrite (run_garbled _ _ _ _ Hexec). by cbn.
Qed.

(** X6. What the process wrote to stderr is looked at only when it exited
    non-zero and its stdout does not decode: when it exited with status 0,
    or its stdout decodes, the same call with any other stderr ends the
    same way. *)
Theorem stderr_is_ignored_when_stdout_decodes
    host exec' self args rc out err err' :
  exec host (command_line self args) = Exited rc out err ->
  exec' (command_line self args) = Exited rc out err' ->
  rc = 0 \/ (exists v, json_loads host out = inr v) ->
  _run_command (with_exec host exec') self args
  = _run_command host self args.
Proof.
  intros Hexec Hexec' Hcase.
  assert (Hexec'' : exec (with_exec host exec') (command_line self args)
                    = Exited rc out err') by done.
  destruct (json_loads host out) as [text|v] eqn:Hjson.
  - destruct Hcase as [->|[v [=]]].
    rewrite (run_zero_invalid host _ _ _ _ _ Hexec Hjson).
    by rewrite (run_zero_invalid (with_exec host exec') _ _ _ _ _
                  Hexec'' Hjson).
  - destruct (decide (rc = 0)) as [->|Hrc].
    + rewrite (run_zero_valid host _ _ _ _ _ Hexec Hjson).
      by rewrite (run_zero_valid (with_exec host exec') _ _ _ _ _
                    Hexec'' Hjson).
    + destruct v;
        try (rewrite (run_nonzero_not_dict host _ _ _ _ _ _ Hexec Hrc Hjson)
               by done;
             by rewrite (run_nonzero_not_dict (with_exec host exec')
                           _ _ _ _ _ _ Hexec'' Hrc Hjson)).
      rewrite (run_nonzero_dict host _ _ _ _ _ _ Hexec Hrc Hjson).
      by rewrite (run_nonzero_dict (with_exec host exec') _ _ _ _ _ _
                    Hexec'' Hrc Hjson).
Qed.

Lemma stderr_is_ignored_when_stdout_decodes_witness :
  _run_command
    (with_exec (sample_host (Exited 1 boom_document ""))
       (fun _ => Exited 1 boom_document "disk full"))
    fly ["doctor"]
  = _run_command (sample_host (Exited 1 boom_document "")) fly ["doctor"].
Proof.
  refine (stderr_is_ignored_when_stdout_decodes
            (sample_host (Exited 1 boom_document ""))
            (fun _ => Exited 1 boom_document "disk full") fly ["doctor"]
            1 boom_document "" "disk full" eq_refl eq_refl
            (or_intror (ex_intro _ _ eq_refl))).
Defined.

(** ** Optional arguments *)

(** X7. An empty string for [base_url] or for [command] is dropped exactly
    like None; any other string is put after its flag, [--base-url] right
    after the type and before the boolean flags. *)
Theorem empty_optional_string_is_dropped :
  (forall name feature service_type with_tests with_mocks,
     add_service_args name feature service_type (Some "") with_tests
       with_mocks
     = add_service_args name feature service_type None with_tests with_mocks)
  /\ export_schema_args (Some "") = export_schema_args None
  /\ (forall name feature service_type url with_tests with_mocks,
        url <> "" ->
        add_service_args name feature service_type (Some url) with_tests
          with_mocks
        = ["add"; "service"; name; "--feature"; feature;
           "--type"; service_type; "--base-url"; url]
          ++ (if with_tests then ["--with-tests=true"] else [])
          ++ (if with_mocks then ["--with-mocks=true"] else []))
  /\ (forall command,
        command <> "" ->
        export_schema_args (Some command)
        = ["schema"; "export"; "--command"; command]).
Proof.
  split; [done|]. split; [done|]. split.
  - intros name feature service_type [|a url] [] [] Hurl; done.
  - intros [|a command] Hcommand; done.
Qed.

Lemma empty_optional_string_is_dropped_witness :
  add_service_args "users" "auth" "api" (Some "https://api.fly.dev") true
    false
  = ["add"; "service"; "users"; "--feature"; "auth"; "--type"; "api";
     "--base-url"; "https://api.fly.dev"; "--with-tests=true"].
Proof.
  refine (proj1 (proj2 (proj2 empty_optional_string_is_dropped))
            "users" "auth" "api" "https://api.fly.dev" true false _).
  discriminate.
Defined.

(** X8. The argument lists of [add_screen], [export_context] and
    [add_service] can be read back: two calls build the same list only when
    they were given the same arguments (for [add_service], an empty
    [base_url] counting as None). *)
Theorem argument_lists_can_be_read_back :
  (forall n f t vm ts n' f' t' vm' ts',
     add_screen_args n f t vm ts = add_screen_args n' f' t' vm' ts'
     <-> (n, f, t, vm, ts) = (n', f', t', vm', ts'))
  /\ (forall o d s c o' d' s' c',
        export_context_args o d s c = export_context_args o' d' s' c'
        <-> (o, d, s, c) = (o', d', s', c'))
  /\ (forall n f t u ts mk n' f' t' u' ts' mk',
        add_service_args n f t u ts mk = add_service_args n' f' t' u' ts' mk'
        <-> (n, f, t, ts, mk) = (n', f', t', ts', mk')
            /\ (if u is Some "" then None else u)
               = (if u' is Some "" then None else u')).
Proof.
  split; [|split].
  - intros n f t vm ts n' f' t' vm' ts'. split; [|by intros [= -> -> -> -> ->]].
    destruct vm, ts, vm', ts'; cbn; intros [=]; by subst.
  - intros o d s c o' d' s' c'. split; [|by intros [= -> -> -> ->]].
    destruct d, s, c, d', s', c'; cbn; intros [=]; by subst.
  - intros n f t u ts mk n' f' t' u' ts' mk'. split.
    + destruct u as [[|a u]|], u' as [[|a' u']|], ts, mk, ts', mk'; cbn;
        intros [=]; by subst.
    + intros [[= -> -> -> -> ->] Hu].
      destruct u as [[|a u]|], u' as [[|a' u']|]; by simplify_eq.
Qed.

Lemma string_app_assoc (a b c : string) : (a +:+ b) +:+ c = a +:+ b +:+ c.
Proof.
  induction a as [|x a IH]; [done|].
  change ((String x a +:+ b) +:+ c) with (String x ((a +:+ b) +:+ c)).
  by rewrite IH.
Qed.

(** X9. The platforms of [create_project] become one token, whatever their
    number, and the joining cannot be undone: a platform name that holds a
    comma builds the same list as the two names around the comma. *)
Theorem platforms_become_one_token :
  (forall name template organization p ps plan,
     create_project_args name template organization (Some (p :: ps)) plan
     = ["create"; name; "--template"; template;
        "--organization"; organization; "--platforms"; join "," (p :: ps)]
       ++ (if plan then ["--plan"] else []))
  /\ (forall name template organization a b rest plan,
        create_project_args name template organization
          (Some ((a +:+ "," +:+ b) :: rest)) plan
        = create_project_args name template organization
            (Some (a :: b :: rest)) plan).
Proof.
  split.
  - intros name template organization p ps []; reflexivity.
  - intros name template organization a b rest plan.
    unfold create_project_args.
    replace (join "," ((a +:+ "," +:+ b) :: rest))
      with (join "," (a :: b :: rest)); [done|].
    destruct rest as [|c rest]; cbn [join]; [done|].
    by rewrite !string_app_assoc.
Qed.

(** ** main() *)

Lemma main_command host console args command :
  ns_command args = Some command -> command <> "" ->
  main host console args
  = match outcome (try_body host console args command) with
    | Return _ =>
        {| ran := trace (try_body host console args command);
           stderr_lines := []; exit_status := 0 |}
    | Raise e =>
        {| ran := trace (try_body host console args command);
           stderr_lines := ["Error: " +:+ str_Exception host console e];
           exit_status := 1 |}
    end.
Proof.
  intros Hcommand Hnonempty. unfold main. rewrite Hcommand.
  by destruct command.
Qed.

Lemma try_body_zero host console args command out err :
  exec host ["fly"; "--version"] = Exited 0 out err ->
  try_body host console args command
  = Act ([Exec ["fly"; "--version"];
          Print ("✅ Fly CLI found: " +:+ str_strip host out)]
         ++ trace (after_probe host console args command))
      (outcome (after_probe host console args command)).
Proof.
  intros Hexec. unfold try_body. by rewrite (init_zero _ _ _ _ Hexec).
Qed.

Lemma then_some host agent args :
  (result ← _run_command host agent args; mret (Some result))
  = Act [Exec (command_line agent args)]
      match outcome (_run_command host agent args) with
      | Return v => Return (Some v)
      | Raise e => Raise e
      end.
Proof.
  pose proof (run_trace host agent args) as Htrace.
  destruct (_run_command host agent args) as [t [v|e]]; cbn in Htrace;
    subst t; reflexivity.
Qed.

Lemma getattr_bind_some {A B} attr (a : A) (f : A -> Action B) :
  getattr attr (Some a) ≫= f = Act (trace (f a)) (outcome (f a)).
Proof. reflexivity. Qed.

Lemma getattr_bind_none {A B} attr (f : A -> Action B) :
  getattr attr None ≫= f
  = Act [] (Raise (AttributeError
                     ("'Namespace' object has no attribute '" +:+ attr +:+
                      "'"))).
Proof. reflexivity. Qed.

(** [dispatch] prints the unknown-command line and nothing else, or raises
    having run at most one process, or returns the result of the one
    process it ran. *)
Lemma dispatch_shape host agent args command :
  dispatch host agent args command
  = Act [Print ("Unknown command: " +:+ command)] (Return None)
  \/ (exists e,
        outcome (dispatch host agent args command) = Raise e
        /\ (trace (dispatch host agent args command) = []
            \/ exists argv,
                 trace (dispatch host agent args command) = [Exec argv]))
  \/ (exists v argv,
        dispatch host agent args command = Act [Exec argv] (Return (Some v))).
Proof.
  unfold dispatch, create_project, add_screen, add_service, export_context,
    export_schema, doctor, version.
  repeat match goal with
         | |- context [String.eqb command ?s] =>
             destruct (String.eqb command s)
         end;
    try (by left);
    right;
    repeat match goal with
           | |- context [getattr _ ?field] =>
               destruct field;
               [rewrite getattr_bind_some; cbn [trace outcome]
               |rewrite getattr_bind_none; cbn [trace outcome];
                left; eexists; split; [done | by left]]
           end;
    rewrite ?action_eta, then_some; cbn [trace outcome];
    (destruct (outcome (_run_command _ _ _)) as [v|e];
     [right; by eexists _, _
     |left; eexists; split; [done | right; by eexists]]).
Qed.

Lemma after_probe_shape host console args command :
  after_probe host console args command
  = Act [Print ("Unknown command: " +:+ command)] (Return tt)
  \/ (exists e,
        outcome (after_probe host console args command) = Raise e
        /\ (trace (after_probe host console args command) = []
            \/ exists argv,
                 trace (after_probe host console args command)
                 = [Exec argv]))
  \/ (exists v argv,
        after_probe host console args command
        = Act [Exec argv; Print (json_dumps console v)] (Return tt)).
Proof.
  unfold after_probe.
  destruct (dispatch_shape host {| fly_command := "fly" |} args command)
    as [->|[(e & Houtcome & Htrace)|(v & argv & ->)]].
  - by left.
  - right; left. exists e. unfold mbind, Action_bind.
    rewrite Houtcome. by cbn.
  - right; right. by exists v, argv.
Qed.

Lemma try_body_raise host console args command t e :
  __init__ host "fly" = Act t (Raise e) ->
  try_body host console args command = Act t (Raise e).
Proof. intros Hinit. unfold try_body. by rewrite Hinit. Qed.

(** The [try] body, by the way the probe ended. *)
Lemma try_body_cases host console args command :
  (exists out err,
     exec host ["fly"; "--version"] = Exited 0 out err
     /\ try_body host console args command
        = Act ([Exec ["fly"; "--version"];
                Print ("✅ Fly CLI found: " +:+ str_strip host out)]
               ++ trace (after_probe host console args command))
            (outcome (after_probe host console args command)))
  \/ (exists e,
        try_body host console args command
        = Act [Exec ["fly"; "--version"]] (Raise e)).
Proof.
  destruct (exec host ["fly"; "--version"])
    as [rc out err| |n|garbage] eqn:Hexec.
  - destruct (decide (rc = 0)) as [->|Hrc].
    + left. exists out, err. split; [done|]. by eapply try_body_zero.
    + right. eexists. apply try_body_raise, init_not_installed.
      right. by exists rc, out, err.
  - right. eexists. apply try_body_raise, init_not_installed. by left.
  - destruct (decide (n = 2)) as [->|Hn].
    + right. eexists. by apply try_body_raise, init_enoent.
    + right. eexists. by apply try_body_raise, init_spawn_error.
  - right. eexists. by eapply try_body_raise, init_garbled.
Qed.

Lemma main_ran host console args command :
  ns_command args = Some command -> command <> "" ->
  ran (main host console args) = trace (try_body host console args command).
Proof.
  intros Hcommand Hnonempty. rewrite (main_command _ _ _ _ Hcommand Hnonempty).
  by destruct (outcome (try_body host console args command)).
Qed.

(** What [main] does once the probe exited with status 0. *)
Lemma main_after_probe host console args command out err :
  ns_command args = Some command -> command <> "" ->
  exec host ["fly"; "--version"] = Exited 0 out err ->
  main host console args
  = match outcome (after_probe host console args command) with
    | Return _ =>
        {| ran := [Exec ["fly"; "--version"];
                   Print ("✅ Fly CLI found: " +:+ str_strip host out)]
                  ++ trace (after_probe host console args command);
           stderr_lines := []; exit_status := 0 |}
    | Raise e =>
        {| ran := [Exec ["fly"; "--version"];
                   Print ("✅ Fly CLI found: " +:+ str_strip host out)]
                  ++ trace (after_probe host console args command);
           stderr_lines := ["Error: " +:+ str_Exception host console e];
           exit_status := 1 |}
    end.
Proof.
  intros Hcommand Hnonempty Hexec.
  rewrite (main_command _ _ _ _ Hcommand Hnonempty).
  by rewrite (try_body_zero _ _ _ _ _ _ Hexec).
Qed.

(** The rest of the [try] when the branch taken runs [args']. *)
Lemma after_probe_run host console args command args' :
  dispatch host {| fly_command := "fly" |} args command
  = (result ← _run_command host fly args'; mret (Some result)) ->
  after_probe host console args command
  = Act (Exec (command_line fly args')
         :: match outcome (_run_command host fly args') with
            | Return v => [Print (json_dumps console v)]
            | Raise _ => []
            end)
      match outcome (_run_command host fly args') with
      | Return _ => Return tt
      | Raise e => Raise e
      end.
Proof.
  intros Hdispatch. unfold after_probe. rewrite Hdispatch, then_some.
  by destruct (outcome (_run_command host fly args')).
Qed.

(** X10. [main] runs nothing when the namespace holds no command (None or
    the empty string): it prints the help text and ends with status 0.  With
    any other command the first process it runs is [fly --version], and it
    runs at most one more. *)
Theorem main_runs_the_probe_first host console args :
  (ns_command args = None \/ ns_command args = Some "" ->
   main host console args
   = {| ran := [Print (help_text console)];
        stderr_lines := []; exit_status := 0 |})
  /\ (forall command,
        ns_command args = Some command -> command <> "" ->
        exists rest,
          processes (ran (main host console args))
          = ["fly"; "--version"] :: rest
          /\ (length rest <= 1)%nat).
Proof.
  split.
  - intros [Hnone|Hempty]; unfold main; by rewrite ?Hnone, ?Hempty.
  - intros command Hcommand Hnonempty.
    rewrite (main_ran _ _ _ _ Hcommand Hnonempty).
    destruct (try_body_cases host console args command)
      as [(out & err & _ & ->)|(e & ->)];
      [|exists []; split; [reflexivity | cbn; lia]].
    cbn [trace].
    destruct (after_probe_shape host console args command)
      as [->|[(e & _ & [->|[argv ->]])|(v & argv & ->)]].
    + exists []. split; [reflexivity | cbn; lia].
    + exists []. split; [reflexivity | cbn; lia].
    + exists [argv]. split; [reflexivity | cbn; lia].
    + exists [argv]. split; [reflexivity | cbn; lia].
Qed.

(** X11. When the probe of [main] finds no [fly], or [fly --version] exits
    non-zero, [main] runs nothing else, prints nothing to stdout, writes the
    install hint after [Error: ] to stderr and ends with status 1, whatever
    the command was. *)
Theorem main_stops_when_the_probe_fails host console args command :
  ns_command args = Some command -> command <> "" ->
  exec host ["fly"; "--version"] = NotFound
  \/ (exists rc out err,
        exec host ["fly"; "--version"] = Exited rc out err /\ rc <> 0) ->
  main host console args
  = {| ran := [Exec ["fly"; "--version"]];
       stderr_lines :=
         ["Error: Fly CLI not found. Please install it with: " +:+
          "dart pub global activate fly_cli"];
       exit_status := 1 |}.
Proof.
  intros Hcommand Hnonempty Hprobe.
  rewrite (main_command _ _ _ _ Hcommand Hnonempty).
  by rewrite (try_body_raise _ _ _ _ _ _ (init_not_installed _ _ Hprobe)).
Qed.

Lemma main_stops_when_the_probe_fails_witness :
  main (scripted_host NotFound (Exited 0 "{}" "")) sample_console
    create_namespace
  = {| ran := [Exec ["fly"; "--version"]];
       stderr_lines :=
         ["Error: Fly CLI not found. Please install it with: " +:+
          "dart pub global activate fly_cli"];
       exit_status := 1 |}.
Proof.
  refine (main_stops_when_the_probe_fails
            (scripted_host NotFound (Exited 0 "{}" "")) sample_console
            create_namespace "create" eq_refl _ (or_introl eq_refl)).
  discriminate.
Defined.

(** X12. [main] ends with status 0 and nothing written to stderr, or with
    status 1 and one [print] to stderr whose text starts with [Error: ]; in
    the second case the only thing it can have printed to stdout is the
    confirmation line of the probe, never a result. *)
Theorem main_failure_prints_no_result host console args :
  (exit_status (main host console args) = 0
   /\ stderr_lines (main host console args) = [])
  \/ (exit_status (main host console args) = 1
      /\ (exists text,
            stderr_lines (main host console args) = ["Error: " +:+ text])
      /\ forall line,
           Print line ∈ ran (main host console args) ->
           exists out err,
             exec host ["fly"; "--version"] = Exited 0 out err
             /\ line = "✅ Fly CLI found: " +:+ str_strip host out).
Proof.
  destruct (ns_command args) as [command|] eqn:Hcommand;
    [|left; unfold main; by rewrite Hcommand].
  destruct (decide (command = "")) as [->|Hnonempty];
    [left; unfold main; by rewrite Hcommand|].
  rewrite (main_command _ _ _ _ Hcommand Hnonempty).
  destruct (try_body_cases host console args command)
    as [(out & err & Hexec & ->)|(e & ->)]; cbn [outcome trace].
  - destruct (after_probe_shape host console args command)
      as [->|[(e & -> & Htrace)|(v & argv & ->)]]; cbn [outcome trace];
      [by left| |by left].
    right. split; [done|]. split; [by eexists|].
    intros line Hline. exists out, err. split; [done|].
    cbn [ran] in Hline.
    destruct Htrace as [Htrace|[argv Htrace]]; rewrite Htrace in Hline;
      cbn in Hline; rewrite ?elem_of_cons, elem_of_nil in Hline;
      intuition congruence.
  - right. split; [done|]. split; [by eexists|].
    intros line Hline. cbn in Hline.
    rewrite elem_of_cons, elem_of_nil in Hline. intuition congruence.
Qed.

(** X13. In the export-schema branch [main] passes [args.command] as the
    schema to export, and in that branch [args.command] is the text
    export-schema itself: once the probe has passed, the one command it
    runs is [fly schema export --command export-schema --output json]. *)
Theorem main_export_schema_names_itself host console args out err :
  ns_command args = Some "export-schema" ->
  exec host ["fly"; "--version"] = Exited 0 out err ->
  processes (ran (main host console args))
  = [["fly"; "--version"];
     ["fly"; "schema"; "export"; "--command"; "export-schema";
      "--output"; "json"]].
Proof.
  intros Hcommand Hexec.
  rewrite (main_ran _ _ _ "export-schema" Hcommand) by done.
  rewrite (try_body_zero _ _ _ _ _ _ Hexec). cbn [trace].
  rewrite (after_probe_run _ _ _ _
             (export_schema_args (Some "export-schema"))) by reflexivity.
  cbn [trace].
  by destruct (outcome (_run_command _ _ _)).
Qed.

Lemma main_export_schema_names_itself_witness :
  processes
    (ran (main (scripted_host (Exited 0 "1.2.3" "") (Exited 0 "{}" ""))
            sample_console (bare_namespace (Some "export-schema"))))
  = [["fly"; "--version"];
     ["fly"; "schema"; "export"; "--command"; "export-schema";
      "--output"; "json"]].
Proof.
  refine (main_export_schema_names_itself
            (scripted_host (Exited 0 "1.2.3" "") (Exited 0 "{}" ""))
            sample_console (bare_namespace (Some "export-schema"))
            "1.2.3" "" eq_refl eq_refl).
Defined.

(** X14. A command that is none of the seven [main] knows still makes it
    run the probe; when the probe passes, [main] prints the unknown-command
    line to stdout, runs nothing else, writes nothing to stderr and ends
    with status 0. *)
Theorem main_unknown_command_exits_zero host console args command out err :
  ns_command args = Some command ->
  command <> "" ->
  command ∉ ["create"; "add-screen"; "add-service"; "export-context";
             "export-schema"; "doctor"; "version"] ->
  exec host ["fly"; "--version"] = Exited 0 out err ->
  main host console args
  = {| ran := [Exec ["fly"; "--version"];
               Print ("✅ Fly CLI found: " +:+ str_strip host out);
               Print ("Unknown command: " +:+ command)];
       stderr_lines := [];
       exit_status := 0 |}.
Proof.
  intros Hcommand Hnonempty Hunknown Hexec.
  rewrite !not_elem_of_cons in Hunknown.
  destruct Hunknown as (H1 & H2 & H3 & H4 & H5 & H6 & H7 & _).
  rewrite (main_after_probe _ _ _ _ _ _ Hcommand Hnonempty Hexec).
  unfold after_probe, dispatch.
  apply String.eqb_neq in H1, H2, H3, H4, H5, H6, H7.
  by rewrite H1, H2, H3, H4, H5, H6, H7.
Qed.

Lemma main_unknown_command_exits_zero_witness :
  main (scripted_host (Exited 0 "1.2.3" "") NotFound) sample_console
    (bare_namespace (Some "deploy"))
  = {| ran := [Exec ["fly"; "--version"];
               Print ("✅ Fly CLI found: " +:+ sample_strip "1.2.3");
               Print ("Unknown command: " +:+ "deploy")];
       stderr_lines := [];
       exit_status := 0 |}.
Proof.
  refine (main_unknown_command_exits_zero
            (scripted_host (Exited 0 "1.2.3" "") NotFound) sample_console
            (bare_namespace (Some "deploy")) "deploy" "1.2.3" ""
            eq_refl _ _ eq_refl).
  - discriminate.
  - rewrite !not_elem_of_cons. repeat split; try discriminate.
    apply not_elem_of_nil.
Defined.

(** X15. When the namespace names create, add-screen or add-service but
    holds no [name], [main] stops at the first attribute it reads: after
    the probe it runs nothing, writes the text of the AttributeError after
    [Error: ] to stderr and ends with status 1. *)
Theorem main_missing_attribute host console args command out err :
  ns_command args = Some command ->
  command ∈ ["create"; "add-screen"; "add-service"] ->
  ns_name args = None ->
  exec host ["fly"; "--version"] = Exited 0 out err ->
  main host console args
  = {| ran := [Exec ["fly"; "--version"];
               Print ("✅ Fly CLI found: " +:+ str_strip host out)];
       stderr_lines :=
         ["Error: 'Namespace' object has no attribute 'name'"];
       exit_status := 1 |}.
Proof.
  intros Hcommand Hknown Hname Hexec.
  rewrite !elem_of_cons, elem_of_nil in Hknown.
  assert (Hnonempty : command <> "") by (intuition (by subst)).
  rewrite (main_after_probe _ _ _ _ _ _ Hcommand Hnonempty Hexec).
  unfold after_probe, dispatch.
  destruct Hknown as [->|[->|[->|[]]]]; cbn [String.eqb Ascii.eqb Bool.eqb];
    by rewrite Hname.
Qed.

Lemma main_missing_attribute_witness :
  main (scripted_host (Exited 0 "1.2.3" "") (Exited 0 "{}" ""))
    sample_console (bare_namespace (Some "create"))
  = {| ran := [Exec ["fly"; "--version"];
               Print ("✅ Fly CLI found: " +:+ sample_strip "1.2.3")];
       stderr_lines :=
         ["Error: 'Namespace' object has no attribute 'name'"];
       exit_status := 1 |}.
Proof.
  refine (main_missing_attribute
            (scripted_host (Exited 0 "1.2.3" "") (Exited 0 "{}" ""))
            sample_console (bare_namespace (Some "create")) "create"
            "1.2.3" "" eq_refl _ eq_refl eq_refl).
  apply list_elem_of_here.
Defined.

(** X16. For the create command [main] hands the five attributes of the
    namespace to [create_project] unchanged, the platforms as the list they
    are and never as None: once the probe has passed, the one command it
    runs is the command line [create_project] builds from them, however
    that command ends. *)
Theorem main_create_passes_the_namespace
    host console args name template organization platforms plan out err :
  ns_command args = Some "create" ->
  ns_name args = Some name ->
  ns_template args = Some template ->
  ns_organization args = Some organization ->
  ns_platforms args = Some platforms ->
  ns_plan args = Some plan ->
  exec host ["fly"; "--version"] = Exited 0 out err ->
  processes (ran (main host console args))
  = [["fly"; "--version"];
     command_line fly
       (create_project_args name template organization (Some platforms)
          plan)].
Proof.
  intros Hcommand Hname Htemplate Horganization Hplatforms Hplan Hexec.
  rewrite (main_ran _ _ _ "create" Hcommand) by done.
  rewrite (try_body_zero _ _ _ _ _ _ Hexec). cbn [trace].
  rewrite (after_probe_run _ _ _ _
             (create_project_args name template organization
                (Some platforms) plan)).
  - cbn [trace]. by destruct (outcome (_run_command _ _ _)).
  - unfold dispatch. cbn [String.eqb Ascii.eqb Bool.eqb].
    rewrite Hname, Htemplate, Horganization, Hplatforms, Hplan.
    by repeat rewrite getattr_bind_some, action_eta.
Qed.

Lemma main_create_passes_the_namespace_witness :
  processes
    (ran (main (scripted_host (Exited 0 "1.2.3" "") (Exited 1 "" "no sdk"))
            sample_console create_namespace))
  = [["fly"; "--version"];
     ["fly"; "create"; "my_app"; "--template"; "riverpod";
      "--organization"; "com.example"; "--platforms"; "ios,android";
      "--output"; "json"]].
Proof.
  refine (main_create_passes_the_namespace
            (scripted_host (Exited 0 "1.2.3" "") (Exited 1 "" "no sdk"))
            sample_console create_namespace "my_app" "riverpod"
            "com.example" ["ios"; "android"] false "1.2.3" ""
            eq_refl eq_refl eq_refl eq_refl eq_refl eq_refl eq_refl).
Defined.

(** X17. Whatever [_run_command] raises for doctor or version, the
    exceptions it does not convert included, [main] catches: it writes
    [Error: ] and the text of the exception to stderr, prints no result and
    ends with status 1. *)
Theorem main_reports_what_the_call_raises
    host console args command out err e :
  ns_command args = Some command ->
  command ∈ ["doctor"; "version"] ->
  exec host ["fly"; "--version"] = Exited 0 out err ->
  outcome (_run_command host fly [command]) = Raise e ->
  main host console args
  = {| ran := [Exec ["fly"; "--version"];
               Print ("✅ Fly CLI found: " +:+ str_strip host out);
               Exec ["fly"; command; "--output"; "json"]];
       stderr_lines := ["Error: " +:+ str_Exception host console e];
       exit_status := 1 |}.
Proof.
  intros Hcommand Hknown Hexec Hraise.
  rewrite !elem_of_cons, elem_of_nil in Hknown.
  assert (Hnonempty : command <> "") by (intuition (by subst)).
  rewrite (main_after_probe _ _ _ _ _ _ Hcommand Hnonempty Hexec).
  rewrite (after_probe_run _ _ _ _ [command]).
  - by rewrite Hraise.
  - by destruct Hknown as [->|[->|[]]].
Qed.

Lemma main_reports_what_the_call_raises_witness :
  main (scripted_host (Exited 0 "1.2.3" "") NotFound) sample_console
    (bare_namespace (Some "doctor"))
  = {| ran := [Exec ["fly"; "--version"];
               Print ("✅ Fly CLI found: " +:+ sample_strip "1.2.3");
               Exec ["fly"; "doctor"; "--output"; "json"]];
       stderr_lines :=
         ["Error: " +:+
          str_Exception (scripted_host (Exited 0 "1.2.3" "") NotFound)
            sample_console (FileNotFoundError "fly")];
       exit_status := 1 |}.
Proof.
  refine (main_reports_what_the_call_raises
            (scripted_host (Exited 0 "1.2.3" "") NotFound) sample_console
            (bare_namespace (Some "doctor")) "doctor" "1.2.3" ""
            (FileNotFoundError "fly") eq_refl _ eq_refl eq_refl).
  apply list_elem_of_here.
Defined.
